(** * A shallow embedding of the Jira client of [src/jira-client.js]

    The client is a class with a constructor and six [async] methods.  Each
    method reads its options object, asks the axios instance stored in
    [this.baseClient] for one request, awaits the answer and returns a part
    of it.  The embedding has three layers:

    - JavaScript values as far as the client handles them ([value]),
      with property reads, parameter defaults and template literals;
    - the axios interface the client calls ([axios_create], [axios_get],
      [axios_post]); axios is an external library, so every request is
      recorded and answered by a [server] that the development leaves
      arbitrary;
    - the class itself ([constructor], [projects], [project], [search],
      [projectRoles], [usersByGroup], [categories]) in a state and
      exception monad over the fields of [this] and the requests sent. *)

From Stdlib Require Import String Ascii List ZArith Bool DecimalString Lia.
Import ListNotations.
Local Open Scope string_scope.
Set Warnings "-register-all".

(** ** JavaScript values *)

(** The values the client can be handed as data: primitives, arrays and
    plain objects, that is objects whose prototype is [Object.prototype]
    and whose own properties are data properties, kept in insertion order.
    [VNum n] is the number [n]; it stands for a JavaScript number only when
    [n] is a safe integer ([safe_integer] below), and the client itself only
    writes 3, 100, 200 and 1000.  [VArrayValues] is the built-in function
    [Array.prototype.values], which the client meets when it reads the
    property [values] of an array; there are no other functions. *)
Inductive value : Type :=
| VUndefined
| VNull
| VBool (b : bool)
| VNum (n : Z)
| VStr (s : string)
| VSymbol (description : string)
| VArr (elements : list value)
| VObj (fields : list (string * value))
| VArrayValues.

(** [undefined] and [null] are the two values that have no properties. *)
Definition nullish (v : value) : bool :=
  match v with
  | VUndefined | VNull => true
  | _ => false
  end.

(** The own property [k] of an object; properties are kept in insertion
    order and an absent one reads as [undefined]. *)
Fixpoint own_property (fields : list (string * value)) (k : string) : value :=
  match fields with
  | [] => VUndefined
  | (k', v) :: rest => if String.eqb k' k then v else own_property rest k
  end.

(** The value of [v.k] for a [v] that is not nullish, for the property
    names this client reads ([host], [user], [token], [version],
    [categoryId], [projectKey], [jql], [fields], [role], [groupname],
    [values], [issues], [actors]) and for the entries of an axios
    configuration.  Among the built-in prototypes only
    [Array.prototype] defines one of them, the method [values]; every other
    read is decided by the own properties. *)
Definition prop (v : value) (k : string) : value :=
  match v with
  | VObj fields => own_property fields k
  | VArr _ => if String.eqb k "values" then VArrayValues else VUndefined
  | _ => VUndefined
  end.

(** A parameter default, [{ k = d }]: it applies to [undefined] only. *)
Definition with_default (d v : value) : value :=
  match v with
  | VUndefined => d
  | _ => v
  end.

(** ** Exceptions *)

Inductive js_error : Type :=
| TypeError
| AxiosError (error : value).

(** How the evaluation of an expression or of a block of statements
    ends. *)
Inductive completion (A : Type) : Type :=
| Normal (a : A)
| Throw (e : js_error).
Arguments Normal {A} a.
Arguments Throw {A} e.

Definition bind_completion {A B : Type} (c : completion A)
    (f : A -> completion B) : completion B :=
  match c with
  | Normal a => f a
  | Throw e => Throw e
  end.

(** ** Template literals *)

(** The integers that a JavaScript number holds exactly and prints in
    plain decimal notation: those of magnitude below 2^53. *)
Definition safe_integer (n : Z) : bool := (Z.abs n <? 2 ^ 53)%Z.

(** The decimal notation of an integer, which is how a template literal
    prints a number that is a safe integer. *)
Definition string_of_Z (n : Z) : string :=
  NilZero.string_of_int (Z.to_int n).

Fixpoint has_own_property (fields : list (string * value)) (k : string)
  : bool :=
  match fields with
  | [] => false
  | (k', _) :: rest => String.eqb k' k || has_own_property rest k
  end.

(** [to_string v] is the evaluation of [${v}] inside a template literal.

    - A Symbol cannot be converted: [TypeError].
    - A plain object is converted by its [toString] method.  Without an
      own property of that name it inherits the one of [Object.prototype]
      and prints as [[object Object]].  An own property [toString] hides
      the inherited method, and no value of this model can take its
      place: data is not callable, and [Array.prototype.values] returns
      an iterator object, not a primitive.  The same holds for an own
      [valueOf], and the inherited [valueOf] returns the object itself, so
      the conversion ends in a [TypeError].
    - An array prints its elements separated by commas, with nothing for
      [undefined] and [null]; an element that cannot be converted makes
      the whole conversion throw.
    - A function prints its source text, here as Node.js prints a
      built-in. *)
Fixpoint to_string (v : value) : completion string :=
  match v with
  | VUndefined => Normal "undefined"
  | VNull => Normal "null"
  | VBool true => Normal "true"
  | VBool false => Normal "false"
  | VNum n => Normal (string_of_Z n)
  | VStr s => Normal s
  | VSymbol _ => Throw TypeError
  | VArr elements =>
      (fix join (xs : list value) : completion string :=
         match xs with
         | [] => Normal ""
         | x :: rest =>
             bind_completion
               (if nullish x then Normal "" else to_string x)
               (fun first =>
                  match rest with
                  | [] => Normal first
                  | _ :: _ =>
                      bind_completion (join rest)
                        (fun others => Normal (first ++ "," ++ others))
                  end)
         end) elements
  | VObj fields =>
      if has_own_property fields "toString" then Throw TypeError
      else Normal "[object Object]"
  | VArrayValues => Normal "function values() { [native code] }"
  end.

(** The values whose text is fixed by the language and given exactly by
    [to_string]: every number in them is a safe integer and they contain
    no function to print. *)
Fixpoint prints_exactly (v : value) : bool :=
  match v with
  | VNum n => safe_integer n
  | VArr elements =>
      (fix all (xs : list value) : bool :=
         match xs with
         | [] => true
         | x :: rest => prints_exactly x && all rest
         end) elements
  | VArrayValues => false
  | _ => true
  end.

(** ** The axios interface *)

(** An axios instance is determined by the configuration it was created
    with, its [defaults]. *)
Record axios_instance : Type := { defaults : value }.

Definition axios_create (config : value) : axios_instance :=
  {| defaults := config |}.

Inductive http_method : Type := GET | POST.

(** One call of [instance.get(url, config)] or
    [instance.post(url, data, config)].  An argument the caller leaves out
    is [VUndefined]. *)
Record request : Type := {
  client : axios_instance;
  verb : http_method;
  url : string;
  body : value;
  config : value
}.

(** The request behind [c.get(path, cfg)], which carries no body, and the
    one behind [c.post(path, payload)], which carries no configuration. *)
Definition get_request (c : axios_instance) (path : string) (cfg : value)
  : request :=
  {| client := c; verb := GET; url := path;
     body := VUndefined; config := cfg |}.

Definition post_request (c : axios_instance) (path : string) (payload : value)
  : request :=
  {| client := c; verb := POST; url := path;
     body := payload; config := VUndefined |}.

(** By the axios request-configuration contract, the query parameters sent
    with a request are the [params] entry of its configuration; no other
    entry reaches the query string. *)
Definition query_params (r : request) : value :=
  if nullish (config r) then VUndefined else prop (config r) "params".

(** The base URL and the basic-authentication credentials of an instance. *)
Definition baseURL (c : axios_instance) : value := prop (defaults c) "baseURL".
Definition auth (c : axios_instance) : value := prop (defaults c) "auth".
Definition username (c : axios_instance) : value := prop (auth c) "username".
Definition password (c : axios_instance) : value := prop (auth c) "password".

(** What axios resolves a request with: the status and the parsed body. *)
Record response : Type := { status : Z; data : value }.

(** A request either succeeds with a response or fails with the error
    object of the HTTP layer (a network error, a status outside 2xx). *)
Inductive http_result : Type :=
| Ok (r : response)
| Failed (error : value).

(** The remote side: its answer to a request may depend on the requests
    that came before. *)
Definition server_type : Type := list request -> request -> http_result.

(** ** Promises and the state of a client *)

(** The settled state of the promise an [async] method returns. *)
Inductive promise (A : Type) : Type :=
| Fulfilled (a : A)
| Rejected (e : js_error).
Arguments Fulfilled {A} a.
Arguments Rejected {A} e.

(** The fields of a [Jira] object. *)
Record Jira : Type := { version : value; baseClient : axios_instance }.

(** Everything a method can read or change: the object it is called on and
    the requests sent so far, the latest first. *)
Record world : Type := { this : Jira; sent : list request }.

Definition M (A : Type) : Type := world -> completion A * world.

Definition ret {A : Type} (a : A) : M A := fun w => (Normal a, w).

Definition throw {A : Type} (e : js_error) : M A := fun w => (Throw e, w).

Definition bind {A B : Type} (m : M A) (f : A -> M B) : M B :=
  fun w =>
    match m w with
    | (Normal a, w') => f a w'
    | (Throw e, w') => (Throw e, w')
    end.

Declare Scope js_scope.
Delimit Scope js_scope with js.
Notation "x <- m ;; k" := (bind m (fun x => k))
  (at level 61, m at next level, right associativity) : js_scope.
Notation "m ;; k" := (bind m (fun _ => k))
  (at level 61, right associativity) : js_scope.
Local Open Scope js_scope.

(** Reading [this.baseClient]. *)
Definition this_baseClient : M axios_instance :=
  fun w => (Normal (baseClient (this w)), w).

(** [v.k] as an expression, and the binding of a destructured parameter
    [{ k }]: both throw a [TypeError] when [v] is [undefined] or [null]. *)
Definition member (v : value) (k : string) : M value :=
  if nullish v then throw TypeError else ret (prop v k).

(** [await p]: the value of a fulfilled promise, and the reason of a
    rejected one thrown at the place of the [await]. *)
Definition await {A : Type} (p : M (promise A)) : M A :=
  s <- p ;;
  match s with
  | Fulfilled a => ret a
  | Rejected e => throw e
  end.

(** An [async] method never throws to its caller: it returns a promise,
    rejected with whatever its body throws. *)
Definition async {A : Type} (body : M A) (w : world) : promise A * world :=
  match body w with
  | (Normal a, w') => (Fulfilled a, w')
  | (Throw e, w') => (Rejected e, w')
  end.

(** An expression that reads no state, evaluated inside a method. *)
Definition evaluate {A : Type} (c : completion A) : M A := fun w => (c, w).

(** The constructor runs before an object exists, without a world. *)
Definition member_pure (v : value) (k : string) : completion value :=
  if nullish v then Throw TypeError else Normal (prop v k).

(** <<
    constructor({ host, user, token, version = 3 }) {
      this.version = version
      this.baseClient = new axios.create({
        baseURL: `https://${host}.atlassian.net/rest/api/${this.version}`,
        auth: { username: user, password: token },
      })
    }
    >>
    [axios.create] returns an object, so applying [new] to it yields the
    instance it returns.  The template literal converts [host] and then
    [this.version]; a conversion that throws ends the constructor. *)
Definition constructor (options : value) : completion Jira :=
  bind_completion (member_pure options "host") (fun host =>
  bind_completion (member_pure options "user") (fun user =>
  bind_completion (member_pure options "token") (fun token =>
  bind_completion (member_pure options "version") (fun version0 =>
  let version := with_default (VNum 3) version0 in
  let this_version := version in
  bind_completion (to_string host) (fun host_text =>
  bind_completion (to_string this_version) (fun version_text =>
  Normal {|
    version := this_version;
    baseClient := axios_create (VObj [
      ("baseURL", VStr ("https://" ++ host_text
                        ++ ".atlassian.net/rest/api/"
                        ++ version_text));
      ("auth", VObj [("username", user); ("password", token)])
    ])
  |})))))).

(** The six methods of the class. *)
Inductive method : Type :=
| Projects | Project | Search | ProjectRoles | UsersByGroup | Categories.

Section Methods.

Variable server : server_type.

(** Sending a request: it is recorded, and the promise axios returns is
    settled by the answer of the server. *)
Definition send (r : request) : M (promise response) :=
  fun w =>
    (match server (sent w) r with
     | Ok resp => Normal (Fulfilled resp)
     | Failed err => Normal (Rejected (AxiosError err))
     end,
     {| this := this w; sent := r :: sent w |}).

Definition axios_get (c : axios_instance) (path : string) (cfg : value)
  : M (promise response) :=
  send (get_request c path cfg).

Definition axios_post (c : axios_instance) (path : string) (payload : value)
  : M (promise response) :=
  send (post_request c path payload).

(** <<
    async projects({ categoryId = 1000 }) {
      const maxResults = 200
      const response = await this.baseClient.get('project/search', {
        params: { categoryId, maxResults },
      })
      return response.data.values
    }
    >> *)
Definition projects (options : value) : M value :=
  categoryId0 <- member options "categoryId" ;;
  let categoryId := with_default (VNum 1000) categoryId0 in
  let maxResults := VNum 200 in
  c <- this_baseClient ;;
  response <- await (axios_get c "project/search" (VObj [
    ("params", VObj [("categoryId", categoryId);
                     ("maxResults", maxResults)])
  ])) ;;
  member (data response) "values".

(** <<
    async project({ projectKey }) {
      const response = await this.baseClient.get(`project/${projectKey}`, {
        expand: 'issueTypes,lead,description',
      })
      return response.data
    }
    >> *)
Definition project (options : value) : M value :=
  projectKey <- member options "projectKey" ;;
  c <- this_baseClient ;;
  key <- evaluate (to_string projectKey) ;;
  response <- await (axios_get c ("project/" ++ key) (VObj [
    ("expand", VStr "issueTypes,lead,description")
  ])) ;;
  ret (data response).

(** The default of the parameter [fields] of [search]. *)
Definition default_fields : value :=
  VArr [VStr "summary"; VStr "status"; VStr "assignee"; VStr "timetracking"].

(** <<
    async search({ jql, fields = ['summary', 'status', 'assignee', 'timetracking'] }) {
      const response = await this.baseClient.post('search', {
        jql,
        maxResults: 100,
        fields,
      })
      return response.data.issues
    }
    >> *)
Definition search (options : value) : M value :=
  jql <- member options "jql" ;;
  fields0 <- member options "fields" ;;
  let fields := with_default default_fields fields0 in
  c <- this_baseClient ;;
  response <- await (axios_post c "search" (VObj [
    ("jql", jql);
    ("maxResults", VNum 100);
    ("fields", fields)
  ])) ;;
  member (data response) "issues".

(** <<
    async projectRoles({ projectKey, role }) {
      const response = await this.baseClient.get(`project/${projectKey}/role/${role}`)
      return response.data.actors
    }
    >> *)
Definition projectRoles (options : value) : M value :=
  projectKey <- member options "projectKey" ;;
  role <- member options "role" ;;
  c <- this_baseClient ;;
  key <- evaluate (to_string projectKey) ;;
  role_text <- evaluate (to_string role) ;;
  response <- await (axios_get c
    ("project/" ++ key ++ "/role/" ++ role_text)
    VUndefined) ;;
  member (data response) "actors".

(** <<
    async usersByGroup({ groupname }) {
      const response = await this.baseClient.get('group/member', {
        params: { groupname, maxResults: 200, includeInactiveUsers: true },
      })
      return response.data.values
    }
    >> *)
Definition usersByGroup (options : value) : M value :=
  groupname <- member options "groupname" ;;
  c <- this_baseClient ;;
  response <- await (axios_get c "group/member" (VObj [
    ("params", VObj [("groupname", groupname);
                     ("maxResults", VNum 200);
                     ("includeInactiveUsers", VBool true)])
  ])) ;;
  member (data response) "values".

(** <<
    async categories() {
      await this.baseClient.get('projectCategory')
    }
    >> *)
Definition categories : M value :=
  c <- this_baseClient ;;
  await (axios_get c "projectCategory" VUndefined) ;;
  ret VUndefined.

(** A call [jira.m(argument)].  A call without an argument passes
    [VUndefined]; [categories] has no parameter and ignores what it is
    given. *)
Definition method_body (m : method) (argument : value) : M value :=
  match m with
  | Projects => projects argument
  | Project => project argument
  | Search => search argument
  | ProjectRoles => projectRoles argument
  | UsersByGroup => usersByGroup argument
  | Categories => categories
  end.

Definition invoke (m : method) (argument : value) (w : world)
  : promise value * world :=
  async (method_body m argument) w.

End Methods.

(** ** Sample data

    The client of the example in the class documentation, a server that
    answers every request with the same body, one that is down, and a few
    arguments. *)

Definition example_options : value :=
  VObj [("host", VStr "yourhost");
        ("user", VStr "jhn@doe.com");
        ("token", VStr "secret")].

Definition example_client : axios_instance :=
  axios_create (VObj [
    ("baseURL", VStr "https://yourhost.atlassian.net/rest/api/3");
    ("auth", VObj [("username", VStr "jhn@doe.com");
                   ("password", VStr "secret")])
  ]).

Definition example_jira : Jira :=
  {| version := VNum 3; baseClient := example_client |}.

Definition example_world : world := {| this := example_jira; sent := [] |}.

Definition example_body : value :=
  VObj [("values", VArr [VObj [("key", VStr "JSC")]]);
        ("issues", VArr [VObj [("key", VStr "JSC-1")]]);
        ("actors", VArr [VObj [("displayName", VStr "John Doe")]])].

Definition example_response : response :=
  {| status := 200; data := example_body |}.

Definition example_server : server_type :=
  fun _ _ => Ok example_response.

Definition network_error : value :=
  VObj [("message", VStr "Network Error")].

Definition down_server : server_type :=
  fun _ _ => Failed network_error.

(** A server that answers every request with a 200 and the body [null]. *)
Definition null_server : server_type :=
  fun _ _ => Ok {| status := 200; data := VNull |}.

(** Options that choose version 2 of the API. *)
Definition versioned_options : value :=
  VObj [("host", VStr "yourhost");
        ("user", VStr "jhn@doe.com");
        ("token", VStr "secret");
        ("version", VNum 2)].

Definition versioned_jira : Jira :=
  {| version := VNum 2;
     baseClient :=
       axios_create (VObj [
         ("baseURL", VStr "https://yourhost.atlassian.net/rest/api/2");
         ("auth", VObj [("username", VStr "jhn@doe.com");
                        ("password", VStr "secret")])
       ]) |}.

Definition versioned_world : world :=
  {| this := versioned_jira; sent := [] |}.

(** An object that cannot be converted to a string. *)
Definition unprintable : value := VObj [("toString", VNull)].

(** ** The methods in tabular form

    What each method body asks axios for and what it does with the
    response, collected per method.  [method_body_run] and
    [method_body_fails] prove that the bodies above behave as these tables
    say; the tables serve to state facts about all methods at once. *)

(** The request a method builds once its parameters are bound; building it
    fails when a template literal of the path does. *)
Definition request_of (m : method) (argument : value) (c : axios_instance)
  : completion request :=
  match m with
  | Projects =>
      Normal (get_request c "project/search"
        (VObj [("params",
                VObj [("categoryId",
                       with_default (VNum 1000) (prop argument "categoryId"));
                      ("maxResults", VNum 200)])]))
  | Project =>
      bind_completion (to_string (prop argument "projectKey")) (fun key =>
      Normal (get_request c ("project/" ++ key)
        (VObj [("expand", VStr "issueTypes,lead,description")])))
  | Search =>
      Normal (post_request c "search"
        (VObj [("jql", prop argument "jql");
               ("maxResults", VNum 100);
               ("fields",
                with_default default_fields (prop argument "fields"))]))
  | ProjectRoles =>
      bind_completion (to_string (prop argument "projectKey")) (fun key =>
      bind_completion (to_string (prop argument "role")) (fun role_text =>
      Normal (get_request c ("project/" ++ key ++ "/role/" ++ role_text)
        VUndefined)))
  | UsersByGroup =>
      Normal (get_request c "group/member"
        (VObj [("params",
                VObj [("groupname", prop argument "groupname");
                      ("maxResults", VNum 200);
                      ("includeInactiveUsers", VBool true)])]))
  | Categories => Normal (get_request c "projectCategory" VUndefined)
  end.

Definition unwrap (m : method) (response : response) : M value :=
  match m with
  | Projects | UsersByGroup => member (data response) "values"
  | Project => ret (data response)
  | Search => member (data response) "issues"
  | ProjectRoles => member (data response) "actors"
  | Categories => ret VUndefined
  end.

Definition throws {A : Type} (c : completion A) : bool :=
  match c with
  | Normal _ => false
  | Throw _ => true
  end.

(** The calls that fail before they send anything: a destructuring method
    given [undefined] or [null], and [project] or [projectRoles] given a
    [projectKey] or [role] that the template literal of the path cannot
    convert to a string. *)
Definition fails_before_request (m : method) (argument : value) : bool :=
  match m with
  | Projects | Search | UsersByGroup => nullish argument
  | Project =>
      nullish argument || throws (to_string (prop argument "projectKey"))
  | ProjectRoles =>
      nullish argument
      || throws (to_string (prop argument "projectKey"))
      || throws (to_string (prop argument "role"))
  | Categories => false
  end.

(** ** Values and template literals *)

(** An induction principle that reaches the elements of an array. *)
Lemma value_elements_ind (P : value -> Prop) :
  P VUndefined -> P VNull -> (forall b, P (VBool b)) -> (forall n, P (VNum n)) ->
  (forall s, P (VStr s)) -> (forall d, P (VSymbol d)) ->
  (forall xs, Forall P xs -> P (VArr xs)) ->
  (forall fields, P (VObj fields)) -> P VArrayValues ->
  forall v, P v.
Proof.
  intros Hu Hn Hb Hz Hs Hy Ha Ho Hf. fix IH 1. intros v.
  destruct v as [ | | b | n | s | d | xs | fields | ].
  - exact Hu.
  - exact Hn.
  - apply Hb.
  - apply Hz.
  - apply Hs.
  - apply Hy.
  - apply Ha. induction xs as [| x xs IHxs]; constructor.
    + apply IH.
    + exact IHxs.
  - apply Ho.
  - exact Hf.
Qed.

(** The conversion of an array, element by element. *)
Lemma to_string_array_one (x : value) :
  to_string (VArr [x])
  = bind_completion (if nullish x then Normal "" else to_string x) Normal.
Proof.
  simpl. destruct (if nullish x then Normal "" else to_string x); reflexivity.
Qed.

Lemma to_string_array_more (x y : value) (ys : list value) :
  to_string (VArr (x :: y :: ys))
  = bind_completion (if nullish x then Normal "" else to_string x)
      (fun first =>
         bind_completion (to_string (VArr (y :: ys)))
           (fun others => Normal (first ++ "," ++ others))).
Proof. reflexivity. Qed.

(** A template literal throws nothing but a [TypeError]. *)
Lemma to_string_throws (v : value) (e : js_error) :
  to_string v = Throw e -> e = TypeError.
Proof.
  revert e. induction v as [ | | b | n | s | d | xs IHxs | fields | ]
    using value_elements_ind; intros e H;
    try (simpl in H; discriminate).
  - destruct b; discriminate.
  - simpl in H. congruence.
  - induction IHxs as [| x xs Hx Hxs IH]; [discriminate |].
    assert (Hhead : forall e',
               (if nullish x then Normal "" else to_string x) = Throw e' ->
               e' = TypeError).
    { intros e' He'. destruct (nullish x); [discriminate |].
      apply Hx. exact He'. }
    destruct xs as [| y ys].
    + rewrite to_string_array_one in H.
      destruct (if nullish x then Normal "" else to_string x) as [first | e']
        eqn:Hfirst; [discriminate |].
      simpl in H. injection H as <-. apply Hhead. reflexivity.
    + rewrite to_string_array_more in H.
      destruct (if nullish x then Normal "" else to_string x) as [first | e']
        eqn:Hfirst.
      * cbn [bind_completion] in H.
        destruct (to_string (VArr (y :: ys))) as [others | e''] eqn:Hrest;
          [discriminate |].
        cbn [bind_completion] in H. injection H as <-.
        apply IH. reflexivity.
      * cbn [bind_completion] in H. injection H as <-.
        apply Hhead. reflexivity.
  - simpl in H. destruct (has_own_property fields "toString"); congruence.
Qed.

Lemma with_default_given (d v : value) :
  v <> VUndefined -> with_default d v = v.
Proof. intros Hv. destruct v; try reflexivity. contradiction. Qed.

(** The safe integers end just below 2^53; from there on a number no
    longer prints as its exact decimal. *)
Example safe_integer_bounds :
  safe_integer (2 ^ 53 - 1) = true /\ safe_integer (1 - 2 ^ 53) = true
  /\ safe_integer (2 ^ 53) = false /\ safe_integer (- 2 ^ 53) = false
  /\ prints_exactly (VNum (2 ^ 60)) = false
  /\ prints_exactly (VArr [VStr "a"; VArr [VNum (10 ^ 21)]]) = false
  /\ prints_exactly (VArr [VStr "a"; VArr [VNum 7]; unprintable]) = true.
Proof. repeat split. Qed.

(** Conversions that throw, and conversions of composite values. *)
Example to_string_samples :
  to_string unprintable = Throw TypeError
  /\ to_string (VSymbol "id") = Throw TypeError
  /\ to_string (VArr [VStr "a"; VArr [unprintable]]) = Throw TypeError
  /\ to_string (VObj [("valueOf", VNull)]) = Normal "[object Object]"
  /\ to_string (VArr [VNum 1; VNull; VArr [VStr "a"; VNum (-2)]; VUndefined])
     = Normal "1,,a,-2,"
  /\ to_string (VNum 10002) = Normal "10002".
Proof. repeat split. Qed.

(** ** Running a method *)

Section Properties.

Variable server : server_type.

Lemma member_defined (v : value) (k : string) (w : world) :
  nullish v = false -> member v k w = (Normal (prop v k), w).
Proof. intros Hv. unfold member. rewrite Hv. reflexivity. Qed.

Lemma member_nullish (v : value) (k : string) (w : world) :
  nullish v = true -> member v k w = (Throw TypeError, w).
Proof. intros Hv. unfold member. rewrite Hv. reflexivity. Qed.

Lemma bind_member_defined {B : Type} (v : value) (k : string)
    (f : value -> M B) (w : world) :
  nullish v = false -> bind (member v k) f w = f (prop v k) w.
Proof. intros Hv. unfold bind. rewrite member_defined by exact Hv. reflexivity. Qed.

Lemma bind_member_nullish {B : Type} (v : value) (k : string)
    (f : value -> M B) (w : world) :
  nullish v = true -> bind (member v k) f w = (Throw TypeError, w).
Proof. intros Hv. unfold bind. rewrite member_nullish by exact Hv. reflexivity. Qed.

(** A template literal inside a method: its text goes on, its exception
    ends the method at once. *)
Lemma bind_evaluate_normal {A B : Type} (c : completion A) (a : A)
    (f : A -> M B) (w : world) :
  c = Normal a -> bind (evaluate c) f w = f a w.
Proof. intros ->. reflexivity. Qed.

Lemma bind_evaluate_throw {A B : Type} (c : completion A) (e : js_error)
    (f : A -> M B) (w : world) :
  c = Throw e -> bind (evaluate c) f w = (Throw e, w).
Proof. intros ->. reflexivity. Qed.

(** Awaiting a request that succeeds continues with the response, in a
    world that differs by the request sent. *)
Lemma await_send_ok {B : Type} (r : request) (resp : response)
    (f : response -> M B) (w : world) :
  server (sent w) r = Ok resp ->
  bind (await (send server r)) f w
  = f resp {| this := this w; sent := r :: sent w |}.
Proof.
  intros Hr. unfold bind, await, bind, send. rewrite Hr. reflexivity.
Qed.

(** Awaiting a request that fails throws the error of the HTTP layer and
    skips the rest of the method. *)
Lemma await_send_failed {B : Type} (r : request) (err : value)
    (f : response -> M B) (w : world) :
  server (sent w) r = Failed err ->
  bind (await (send server r)) f w
  = (Throw (AxiosError err), {| this := this w; sent := r :: sent w |}).
Proof.
  intros Hr. unfold bind, await, bind, send. rewrite Hr. reflexivity.
Qed.

Lemma cons_neq_self {A : Type} (x : A) (l : list A) : l <> x :: l.
Proof.
  intros H. apply (f_equal (@length A)) in H. simpl in H. lia.
Qed.

Lemma bind_await_send_world {B : Type} (r : request)
    (rest : response -> M B) (w : world) :
  (forall resp w', snd (rest resp w') = w') ->
  snd (bind (await (send server r)) rest w)
  = {| this := this w; sent := r :: sent w |}.
Proof.
  intros Hrest. destruct (server (sent w) r) as [resp | err] eqn:Hr.
  - rewrite (await_send_ok _ _ _ _ Hr). apply Hrest.
  - rewrite (await_send_failed _ _ _ _ Hr). reflexivity.
Qed.

Lemma snd_async {A : Type} (body : M A) (w : world) :
  snd (async body w) = snd (body w).
Proof. unfold async. destruct (body w) as [[a | e] w']; reflexivity. Qed.

(** ** The method bodies against the tables *)

Lemma request_of_defined (m : method) (argument : value) (c : axios_instance) :
  fails_before_request m argument = false ->
  exists r : request, request_of m argument c = Normal r.
Proof.
  intros Hgo. destruct m; simpl in *; try (eexists; reflexivity).
  - apply orb_false_elim in Hgo. destruct Hgo as [_ Hkey].
    destruct (to_string (prop argument "projectKey")); [| discriminate].
    eexists. reflexivity.
  - apply orb_false_elim in Hgo. destruct Hgo as [Hgo Hrole].
    apply orb_false_elim in Hgo. destruct Hgo as [_ Hkey].
    destruct (to_string (prop argument "projectKey")); [| discriminate].
    destruct (to_string (prop argument "role")); [| discriminate].
    eexists. reflexivity.
Qed.

Lemma fails_before_request_nullish (m : method) (argument : value) :
  fails_before_request m argument = false ->
  m = Categories \/ nullish argument = false.
Proof.
  intros Hgo. destruct m; simpl in Hgo; try (right; exact Hgo);
    try (left; reflexivity);
    repeat (apply orb_false_elim in Hgo; destruct Hgo as [Hgo _]);
    right; exact Hgo.
Qed.

Lemma method_body_run (m : method) (argument : value) (w : world)
    (r : request) :
  fails_before_request m argument = false ->
  request_of m argument (baseClient (this w)) = Normal r ->
  method_body server m argument w
  = bind (await (send server r)) (unwrap m) w.
Proof.
  intros Hgo Hr.
  destruct (fails_before_request_nullish m argument Hgo) as [Hm | Harg].
  - subst m. simpl in Hr. injection Hr as <-. reflexivity.
  - destruct m; unfold method_body, projects, project, search, projectRoles,
      usersByGroup, categories; simpl in Hr;
      repeat rewrite bind_member_defined by exact Harg;
      unfold this_baseClient; cbn [bind].
    + injection Hr as <-. reflexivity.
    + destruct (to_string (prop argument "projectKey")) as [key | e] eqn:Hkey;
        [| discriminate].
      injection Hr as <-. reflexivity.
    + injection Hr as <-. reflexivity.
    + destruct (to_string (prop argument "projectKey")) as [key | e] eqn:Hkey;
        [| discriminate].
      destruct (to_string (prop argument "role")) as [role_text | e]
        eqn:Hrole; [| discriminate].
      injection Hr as <-. reflexivity.
    + injection Hr as <-. reflexivity.
    + injection Hr as <-. reflexivity.
Qed.

Lemma method_body_fails (m : method) (argument : value) (w : world) :
  fails_before_request m argument = true ->
  method_body server m argument w = (Throw TypeError, w).
Proof.
  intros Hfail.
  destruct m; simpl in Hfail; try discriminate;
    unfold method_body, projects, project, search, projectRoles, usersByGroup;
    (destruct (nullish argument) eqn:Harg;
     [ apply bind_member_nullish; exact Harg | ]);
    try discriminate;
    repeat rewrite bind_member_defined by exact Harg;
    unfold this_baseClient; cbn [bind]; simpl in Hfail.
  - destruct (to_string (prop argument "projectKey")) as [key | e] eqn:Hkey;
      [discriminate |].
    apply to_string_throws in Hkey. subst e. reflexivity.
  - destruct (to_string (prop argument "projectKey")) as [key | e] eqn:Hkey.
    + destruct (to_string (prop argument "role")) as [role_text | e]
        eqn:Hrole; [discriminate |].
      apply to_string_throws in Hrole. subst e. reflexivity.
    + apply to_string_throws in Hkey. subst e. reflexivity.
Qed.

Lemma unwrap_world (m : method) (resp : response) (w : world) :
  snd (unwrap m resp w) = w.
Proof.
  destruct m; unfold unwrap, member, ret, throw;
    try reflexivity; destruct (nullish (data resp)); reflexivity.
Qed.

Lemma invoke_fails (m : method) (argument : value) (w : world) :
  fails_before_request m argument = true ->
  invoke server m argument w = (Rejected TypeError, w).
Proof.
  intros Hfail. unfold invoke, async.
  rewrite (method_body_fails m argument w Hfail). reflexivity.
Qed.

Lemma invoke_failed (m : method) (argument : value) (w : world)
    (r : request) (err : value) :
  fails_before_request m argument = false ->
  request_of m argument (baseClient (this w)) = Normal r ->
  server (sent w) r = Failed err ->
  invoke server m argument w
  = (Rejected (AxiosError err), {| this := this w; sent := r :: sent w |}).
Proof.
  intros Hgo Hr Hfail. unfold invoke, async.
  rewrite (method_body_run m argument w r Hgo Hr).
  rewrite (await_send_failed _ _ _ _ Hfail). reflexivity.
Qed.

Lemma invoke_ok (m : method) (argument : value) (w : world)
    (r : request) (resp : response) :
  fails_before_request m argument = false ->
  request_of m argument (baseClient (this w)) = Normal r ->
  server (sent w) r = Ok resp ->
  invoke server m argument w
  = async (unwrap m resp) {| this := this w; sent := r :: sent w |}.
Proof.
  intros Hgo Hr Hok. unfold invoke.
  unfold async at 1. rewrite (method_body_run m argument w r Hgo Hr).
  rewrite (await_send_ok _ _ _ _ Hok). reflexivity.
Qed.

Lemma invoke_world (m : method) (argument : value) (w : world) (r : request) :
  fails_before_request m argument = false ->
  request_of m argument (baseClient (this w)) = Normal r ->
  snd (invoke server m argument w)
  = {| this := this w; sent := r :: sent w |}.
Proof.
  intros Hgo Hr. unfold invoke.
  rewrite snd_async, (method_body_run m argument w r Hgo Hr).
  apply bind_await_send_world. intros resp w'. apply unwrap_world.
Qed.

(** The request a call has sent, recovered from the log. *)
Lemma sent_request (m : method) (argument : value) (w : world) (r : request) :
  sent (snd (invoke server m argument w)) = r :: sent w ->
  fails_before_request m argument = false
  /\ request_of m argument (baseClient (this w)) = Normal r.
Proof.
  intros Hsent.
  destruct (fails_before_request m argument) eqn:Hgo.
  - rewrite (invoke_fails m argument w Hgo) in Hsent.
    simpl in Hsent. apply cons_neq_self in Hsent. contradiction.
  - split; [reflexivity |].
    destruct (request_of_defined m argument (baseClient (this w)) Hgo)
      as [r0 Hr0].
    rewrite (invoke_world m argument w r0 Hgo Hr0) in Hsent.
    simpl in Hsent. injection Hsent as <-. exact Hr0.
Qed.

(** [unwrap] on a body with properties and on one without. *)
Lemma async_unwrap (m : method) (resp : response) (w : world) :
  async (unwrap m resp) w
  = (match m with
     | Project => Fulfilled (data resp)
     | Categories => Fulfilled VUndefined
     | Projects | UsersByGroup =>
         if nullish (data resp) then Rejected TypeError
         else Fulfilled (prop (data resp) "values")
     | Search =>
         if nullish (data resp) then Rejected TypeError
         else Fulfilled (prop (data resp) "issues")
     | ProjectRoles =>
         if nullish (data resp) then Rejected TypeError
         else Fulfilled (prop (data resp) "actors")
     end, w).
Proof.
  destruct m; unfold async, unwrap, member, ret, throw;
    try reflexivity; destruct (nullish (data resp)); reflexivity.
Qed.

(** ** The constructor *)

(** C3.  Constructing a client from an options object gives a [Jira] whose
    [version] is the one given, or 3 when the options leave it out, and
    whose axios instance has the base URL
    [https://{host}.atlassian.net/rest/api/{version}] and basic
    authentication with [user] as the user name and [token] as the
    password, whatever [user] and [token] are and for every [host] and
    [version] that have a text: strings, safe integers and the other values
    that [prints_exactly] admits and [to_string] converts. *)
Theorem constructor_configures_client (options api_version : value)
    (host_text version_text : string) :
  nullish options = false ->
  (prop options "version" = VUndefined /\ api_version = VNum 3)
  \/ (prop options "version" = api_version /\ api_version <> VUndefined) ->
  prints_exactly (prop options "host") = true ->
  to_string (prop options "host") = Normal host_text ->
  prints_exactly api_version = true ->
  to_string api_version = Normal version_text ->
  exists jira : Jira,
    constructor options = Normal jira
    /\ version jira = api_version
    /\ baseURL (baseClient jira)
       = VStr ("https://" ++ host_text
               ++ ".atlassian.net/rest/api/" ++ version_text)
    /\ username (baseClient jira) = prop options "user"
    /\ password (baseClient jira) = prop options "token".
Proof.
  intros Hopt Hversion _ Hhost _ Htext.
  assert (Hdefault : with_default (VNum 3) (prop options "version")
                     = api_version).
  { destruct Hversion as [[Hnone ->] | [Hgiven Hsome]].
    - rewrite Hnone. reflexivity.
    - rewrite Hgiven. apply with_default_given. exact Hsome. }
  unfold constructor, member_pure. rewrite Hopt.
  cbn [bind_completion]. rewrite Hdefault, Hhost, Htext.
  cbn [bind_completion].
  eexists. split; [reflexivity |]. repeat split.
Qed.

(** For string arguments and no version, the base URL in closed form. *)
Lemma constructor_default_version (host user token : string) :
  constructor (VObj [("host", VStr host); ("user", VStr user);
                     ("token", VStr token)])
  = Normal {|
      version := VNum 3;
      baseClient := axios_create (VObj [
        ("baseURL", VStr ("https://" ++ host ++ ".atlassian.net/rest/api/3"));
        ("auth", VObj [("username", VStr user); ("password", VStr token)])
      ])
    |}.
Proof. reflexivity. Qed.

(** ** The methods, one by one *)

(** C4.  [projects(options)] sends one GET request to [project/search]
    whose query parameters are exactly [categoryId], the one of the options
    or 1000 when the options leave it out, and [maxResults] = 200; when the
    request succeeds it resolves to the [values] property of the response
    body. *)
Theorem projects_request_and_result (w : world) (options categoryId : value)
    (resp : response) :
  nullish options = false ->
  (prop options "categoryId" = VUndefined /\ categoryId = VNum 1000)
  \/ (prop options "categoryId" = categoryId /\ categoryId <> VUndefined) ->
  server (sent w)
    (get_request (baseClient (this w)) "project/search"
       (VObj [("params",
               VObj [("categoryId", categoryId);
                     ("maxResults", VNum 200)])]))
  = Ok resp ->
  nullish (data resp) = false ->
  exists r : request,
    invoke server Projects options w
    = (Fulfilled (prop (data resp) "values"),
       {| this := this w; sent := r :: sent w |})
    /\ client r = baseClient (this w)
    /\ verb r = GET
    /\ url r = "project/search"
    /\ query_params r
       = VObj [("categoryId", categoryId); ("maxResults", VNum 200)].
Proof.
  intros Hopt Hid Hresp Hdata.
  assert (Hdefault : with_default (VNum 1000) (prop options "categoryId")
                     = categoryId).
  { destruct Hid as [[Hnone ->] | [Hgiven Hsome]].
    - rewrite Hnone. reflexivity.
    - rewrite Hgiven. apply with_default_given. exact Hsome. }
  eexists. split.
  - unfold invoke, async, method_body, projects.
    rewrite bind_member_defined by exact Hopt.
    unfold this_baseClient, axios_get. cbn [bind].
    rewrite Hdefault, (await_send_ok _ _ _ _ Hresp).
    rewrite member_defined by exact Hdata. reflexivity.
  - repeat split.
Qed.

(** [project(options)] sends one GET request to [project/{projectKey}] and
    resolves to the whole response body.  The [expand] entry is in the
    request configuration, next to where [params] would be, so the request
    has no query parameters. *)
Lemma project_request_and_result (w : world) (options : value) (key : string)
    (resp : response) :
  nullish options = false ->
  prints_exactly (prop options "projectKey") = true ->
  to_string (prop options "projectKey") = Normal key ->
  server (sent w)
    (get_request (baseClient (this w)) ("project/" ++ key)
       (VObj [("expand", VStr "issueTypes,lead,description")]))
  = Ok resp ->
  exists r : request,
    invoke server Project options w
    = (Fulfilled (data resp), {| this := this w; sent := r :: sent w |})
    /\ client r = baseClient (this w)
    /\ verb r = GET
    /\ url r = "project/" ++ key
    /\ prop (config r) "expand" = VStr "issueTypes,lead,description"
    /\ query_params r = VUndefined.
Proof.
  intros Hopt _ Hkey Hresp. eexists. split.
  - unfold invoke, async, method_body, project.
    rewrite bind_member_defined by exact Hopt.
    unfold this_baseClient, axios_get. cbn [bind].
    rewrite (bind_evaluate_normal _ _ _ _ Hkey).
    rewrite (await_send_ok _ _ _ _ Hresp). reflexivity.
  - repeat split.
Qed.

(** C5.  [search(options)] sends one POST request to [search] whose body is
    exactly [{jql, maxResults: 100, fields}], where [fields] is the list of
    the options or the four default fields when the options leave it out;
    when the request succeeds it resolves to the [issues] property of the
    response body. *)
Theorem search_request_and_result (w : world) (options fields : value)
    (resp : response) :
  nullish options = false ->
  (prop options "fields" = VUndefined
   /\ fields = VArr [VStr "summary"; VStr "status"; VStr "assignee";
                     VStr "timetracking"])
  \/ (prop options "fields" = fields /\ fields <> VUndefined) ->
  server (sent w)
    (post_request (baseClient (this w)) "search"
       (VObj [("jql", prop options "jql");
              ("maxResults", VNum 100);
              ("fields", fields)]))
  = Ok resp ->
  nullish (data resp) = false ->
  exists r : request,
    invoke server Search options w
    = (Fulfilled (prop (data resp) "issues"),
       {| this := this w; sent := r :: sent w |})
    /\ client r = baseClient (this w)
    /\ verb r = POST
    /\ url r = "search"
    /\ body r
       = VObj [("jql", prop options "jql");
               ("maxResults", VNum 100);
               ("fields", fields)].
Proof.
  intros Hopt Hfields Hresp Hdata.
  assert (Hdefault : with_default default_fields (prop options "fields")
                     = fields).
  { destruct Hfields as [[Hnone ->] | [Hgiven Hsome]].
    - rewrite Hnone. reflexivity.
    - rewrite Hgiven. apply with_default_given. exact Hsome. }
  eexists. split.
  - unfold invoke, async, method_body, search.
    do 2 rewrite bind_member_defined by exact Hopt.
    unfold this_baseClient, axios_post. cbn [bind].
    rewrite Hdefault, (await_send_ok _ _ _ _ Hresp).
    rewrite member_defined by exact Hdata. reflexivity.
  - repeat split.
Qed.

(** C6.  [projectRoles(options)] sends one GET request to
    [project/{projectKey}/role/{role}] without query parameters, for every
    [projectKey] and [role] that have a text (strings, safe integers and
    the other values that [prints_exactly] admits and [to_string]
    converts); when the request succeeds it resolves to the [actors]
    property of the response body. *)
Theorem projectRoles_request_and_result (w : world) (options : value)
    (key role_text : string) (resp : response) :
  nullish options = false ->
  prints_exactly (prop options "projectKey") = true ->
  to_string (prop options "projectKey") = Normal key ->
  prints_exactly (prop options "role") = true ->
  to_string (prop options "role") = Normal role_text ->
  server (sent w)
    (get_request (baseClient (this w))
       ("project/" ++ key ++ "/role/" ++ role_text)
       VUndefined)
  = Ok resp ->
  nullish (data resp) = false ->
  exists r : request,
    invoke server ProjectRoles options w
    = (Fulfilled (prop (data resp) "actors"),
       {| this := this w; sent := r :: sent w |})
    /\ client r = baseClient (this w)
    /\ verb r = GET
    /\ url r = "project/" ++ key ++ "/role/" ++ role_text
    /\ config r = VUndefined
    /\ query_params r = VUndefined.
Proof.
  intros Hopt _ Hkey _ Hrole Hresp Hdata. eexists. split.
  - unfold invoke, async, method_body, projectRoles.
    do 2 rewrite bind_member_defined by exact Hopt.
    unfold this_baseClient, axios_get. cbn [bind].
    rewrite (bind_evaluate_normal _ _ _ _ Hkey).
    rewrite (bind_evaluate_normal _ _ _ _ Hrole).
    rewrite (await_send_ok _ _ _ _ Hresp).
    rewrite member_defined by exact Hdata. reflexivity.
  - repeat split.
Qed.

(** C7.  [usersByGroup(options)] sends one GET request to [group/member]
    whose query parameters are exactly [groupname], [maxResults] = 200 and
    [includeInactiveUsers] = true; when the request succeeds it resolves to
    the [values] property of the response body. *)
Theorem usersByGroup_request_and_result (w : world) (options : value)
    (resp : response) :
  nullish options = false ->
  server (sent w)
    (get_request (baseClient (this w)) "group/member"
       (VObj [("params",
               VObj [("groupname", prop options "groupname");
                     ("maxResults", VNum 200);
                     ("includeInactiveUsers", VBool true)])]))
  = Ok resp ->
  nullish (data resp) = false ->
  exists r : request,
    invoke server UsersByGroup options w
    = (Fulfilled (prop (data resp) "values"),
       {| this := this w; sent := r :: sent w |})
    /\ client r = baseClient (this w)
    /\ verb r = GET
    /\ url r = "group/member"
    /\ query_params r
       = VObj [("groupname", prop options "groupname");
               ("maxResults", VNum 200);
               ("includeInactiveUsers", VBool true)].
Proof.
  intros Hopt Hresp Hdata. eexists. split.
  - unfold invoke, async, method_body, usersByGroup.
    rewrite bind_member_defined by exact Hopt.
    unfold this_baseClient, axios_get. cbn [bind].
    rewrite (await_send_ok _ _ _ _ Hresp).
    rewrite member_defined by exact Hdata. reflexivity.
  - repeat split.
Qed.

(** A response whose body is [null] (or [undefined]) has no properties to
    read: the methods that unwrap a property of the body then end with a
    [TypeError], after their request was sent. *)
Lemma null_body_type_error (w : world) (options : value) (resp : response) :
  nullish options = false ->
  server (sent w)
    (get_request (baseClient (this w)) "project/search"
       (VObj [("params",
               VObj [("categoryId",
                      with_default (VNum 1000) (prop options "categoryId"));
                     ("maxResults", VNum 200)])]))
  = Ok resp ->
  nullish (data resp) = true ->
  exists r : request,
    invoke server Projects options w
    = (Rejected TypeError, {| this := this w; sent := r :: sent w |}).
Proof.
  intros Hopt Hresp Hdata. eexists.
  unfold invoke, async, method_body, projects.
  rewrite bind_member_defined by exact Hopt.
  unfold this_baseClient, axios_get. cbn [bind].
  rewrite (await_send_ok _ _ _ _ Hresp).
  rewrite member_nullish by exact Hdata. reflexivity.
Qed.

(** C2.  [categories()] sends one GET request to [projectCategory]; when
    the request succeeds it resolves to [undefined] whatever the response
    is, so the body never reaches the caller. *)
Theorem categories_discards_response (w : world) (argument : value)
    (resp : response) :
  server (sent w)
    (get_request (baseClient (this w)) "projectCategory" VUndefined)
  = Ok resp ->
  exists r : request,
    invoke server Categories argument w
    = (Fulfilled VUndefined, {| this := this w; sent := r :: sent w |})
    /\ client r = baseClient (this w)
    /\ verb r = GET
    /\ url r = "projectCategory"
    /\ query_params r = VUndefined.
Proof.
  intros Hresp. eexists. split.
  - unfold invoke, async, method_body, categories.
    unfold this_baseClient, axios_get. cbn [bind].
    rewrite (await_send_ok _ _ _ _ Hresp). reflexivity.
  - repeat split.
Qed.

(** ** All methods at once *)

(** C8.  When the request a method call sends fails, the promise of the
    call is rejected with the very error the HTTP layer produced, and that
    request stays the only one: nothing is caught, translated, wrapped or
    tried again. *)
Theorem http_failure_propagates (m : method) (argument : value) (w : world)
    (r : request) (err : value) :
  sent (snd (invoke server m argument w)) = r :: sent w ->
  server (sent w) r = Failed err ->
  invoke server m argument w
  = (Rejected (AxiosError err), {| this := this w; sent := r :: sent w |}).
Proof.
  intros Hsent Hfail.
  apply sent_request in Hsent. destruct Hsent as [Hgo Hr].
  apply (invoke_failed m argument w r err Hgo Hr Hfail).
Qed.

(** C9 as amended.  Every method call leaves [this], that is [version] and
    [baseClient], as it was, whether it resolves or rejects; and a call
    that gets as far as its request sends exactly one.  The calls that do
    not are listed by [fails_before_request]: a destructuring method given
    [undefined] or [null], and [project] or [projectRoles] given a
    [projectKey] or [role] that cannot be converted to a string. *)
Theorem method_call_frame (m : method) (argument : value) (w : world) :
  this (snd (invoke server m argument w)) = this w
  /\ (fails_before_request m argument = false ->
      exists r : request,
        snd (invoke server m argument w)
        = {| this := this w; sent := r :: sent w |}).
Proof.
  split.
  - destruct (fails_before_request m argument) eqn:Hgo.
    + rewrite (invoke_fails m argument w Hgo). reflexivity.
    + destruct (request_of_defined m argument (baseClient (this w)) Hgo)
        as [r Hr].
      rewrite (invoke_world m argument w r Hgo Hr). reflexivity.
  - intros Hgo.
    destruct (request_of_defined m argument (baseClient (this w)) Hgo)
      as [r Hr].
    exists r. apply (invoke_world m argument w r Hgo Hr).
Qed.

(** C10.  Called without an argument, [projects], [project], [search],
    [projectRoles] and [usersByGroup] fail with a [TypeError] while binding
    their parameters: the promise of the call is rejected with it and no
    request has been sent.  [categories] called the same way sends its
    request and never fails with a [TypeError]. *)
Theorem no_argument_type_error (m : method) (w : world) :
  match m with
  | Categories =>
      (exists r : request,
         snd (invoke server Categories VUndefined w)
         = {| this := this w; sent := r :: sent w |})
      /\ fst (invoke server Categories VUndefined w) <> Rejected TypeError
  | _ => invoke server m VUndefined w = (Rejected TypeError, w)
  end.
Proof.
  destruct m; try reflexivity.
  split.
  - eexists. unfold invoke. rewrite snd_async.
    unfold categories, method_body, this_baseClient, axios_get. cbn [bind].
    apply bind_await_send_world. reflexivity.
  - unfold invoke, async, method_body, categories, this_baseClient, axios_get.
    cbn [bind].
    destruct (server (sent w)
                (get_request (baseClient (this w)) "projectCategory" VUndefined))
      as [resp | err] eqn:Hr.
    + rewrite (await_send_ok _ _ _ _ Hr). discriminate.
    + rewrite (await_send_failed _ _ _ _ Hr). discriminate.
Qed.

(** ** Outcomes of a call, for all methods *)

(** X1.  [new Jira(options)] throws, and then a [TypeError], exactly when
    [options] is [undefined] or [null] or when the template literal of the
    base URL cannot convert [host] or the version (the one given, or 3) to
    a string; in every other case it returns a client.  [user] and
    [token] are stored as they are. *)
Theorem constructor_outcome (options : value) :
  match constructor options with
  | Throw e =>
      e = TypeError
      /\ (nullish options = true
          \/ to_string (prop options "host") = Throw TypeError
          \/ to_string (match prop options "version" with
                        | VUndefined => VNum 3
                        | given => given
                        end) = Throw TypeError)
  | Normal jira =>
      nullish options = false
      /\ (exists host_text : string,
            to_string (prop options "host") = Normal host_text)
      /\ (exists version_text : string,
            to_string (match prop options "version" with
                       | VUndefined => VNum 3
                       | given => given
                       end) = Normal version_text)
      /\ username (baseClient jira) = prop options "user"
      /\ password (baseClient jira) = prop options "token"
  end.
Proof.
  assert (Hdefault : with_default (VNum 3) (prop options "version")
                     = match prop options "version" with
                       | VUndefined => VNum 3
                       | given => given
                       end).
  { destruct (prop options "version"); reflexivity. }
  unfold constructor, member_pure. rewrite <- Hdefault. clear Hdefault.
  destruct (nullish options); cbn [bind_completion].
  - cbv beta iota. split; [reflexivity | left; reflexivity].
  - cbv zeta.
    generalize (with_default (VNum 3) (prop options "version")).
    intros api_version.
    destruct (to_string (prop options "host")) as [host_text | e] eqn:Hhost;
      cbn [bind_completion].
    + destruct (to_string api_version) as [version_text | e] eqn:Hversion;
        cbn [bind_completion].
      * cbv beta iota. split; [reflexivity |].
        split; [eexists; reflexivity |].
        split; [eexists; reflexivity |]. split; reflexivity.
      * cbv beta iota. apply to_string_throws in Hversion. subst e.
        split; [reflexivity | right; right; reflexivity].
    + cbv beta iota. apply to_string_throws in Hhost. subst e.
      split; [reflexivity | right; left; reflexivity].
Qed.

(** X2.  A call sends no request exactly when it is one of the calls that
    [fails_before_request] lists: a destructuring method given [undefined]
    or [null], or [project] or [projectRoles] given a [projectKey] or
    [role] that cannot be converted to a string. *)
Theorem no_request_iff_fails_before (m : method) (argument : value)
    (w : world) :
  sent (snd (invoke server m argument w)) = sent w
  <-> fails_before_request m argument = true.
Proof.
  split.
  - intros Hsent. destruct (fails_before_request m argument) eqn:Hgo;
      [reflexivity |].
    destruct (request_of_defined m argument (baseClient (this w)) Hgo)
      as [r Hr].
    rewrite (invoke_world m argument w r Hgo Hr) in Hsent. simpl in Hsent.
    symmetry in Hsent. apply cons_neq_self in Hsent. contradiction.
  - intros Hfail. rewrite (invoke_fails m argument w Hfail). reflexivity.
Qed.

(** X3.  Every request of a client built by the constructor goes through
    the axios instance the constructor configured: it carries the base URL
    made of the texts of [host] and of the version (the one given, or 3)
    and the credentials [user] and [token] given at construction. *)
Theorem request_carries_constructor_settings (options api_version : value)
    (host_text version_text : string) (jira : Jira)
    (m : method) (argument : value) (w : world) (r : request) :
  constructor options = Normal jira ->
  (prop options "version" = VUndefined /\ api_version = VNum 3)
  \/ (prop options "version" = api_version /\ api_version <> VUndefined) ->
  prints_exactly (prop options "host") = true ->
  to_string (prop options "host") = Normal host_text ->
  prints_exactly api_version = true ->
  to_string api_version = Normal version_text ->
  this w = jira ->
  sent (snd (invoke server m argument w)) = r :: sent w ->
  baseURL (client r)
  = VStr ("https://" ++ host_text
          ++ ".atlassian.net/rest/api/" ++ version_text)
  /\ username (client r) = prop options "user"
  /\ password (client r) = prop options "token".
Proof.
  intros Hnew Hversion _ Hhost _ Htext Hthis Hsent.
  apply sent_request in Hsent. destruct Hsent as [_ Hr].
  assert (Hclient : client r = baseClient jira).
  { rewrite Hthis in Hr. destruct m; simpl in Hr;
      repeat match type of Hr with
             | context [to_string ?v] => destruct (to_string v); simpl in Hr
             end;
      try discriminate; injection Hr as <-; reflexivity. }
  rewrite Hclient. clear Hclient Hr.
  assert (Hdefault : with_default (VNum 3) (prop options "version")
                     = api_version).
  { destruct Hversion as [[Hnone ->] | [Hgiven Hsome]].
    - rewrite Hnone. reflexivity.
    - rewrite Hgiven. apply with_default_given. exact Hsome. }
  unfold constructor, member_pure in Hnew.
  destruct (nullish options); cbn [bind_completion] in Hnew;
    [discriminate |].
  rewrite Hdefault, Hhost, Htext in Hnew. cbn [bind_completion] in Hnew.
  injection Hnew as <-. repeat split.
Qed.

(** X4.  [search] is the only method that sends a POST request.  The GET
    requests of the other methods have no body, and the POST request has no
    request configuration, hence no query parameters. *)
Theorem only_search_posts (m : method) (argument : value) (w : world)
    (r : request) :
  sent (snd (invoke server m argument w)) = r :: sent w ->
  (verb r = POST <-> m = Search)
  /\ (verb r = GET -> body r = VUndefined)
  /\ (verb r = POST -> config r = VUndefined /\ query_params r = VUndefined).
Proof.
  intros Hsent. apply sent_request in Hsent. destruct Hsent as [_ Hr].
  destruct m; simpl in Hr;
    repeat match type of Hr with
           | context [to_string ?v] => destruct (to_string v); simpl in Hr
           end;
    try discriminate; injection Hr as <-; simpl; repeat split;
    try reflexivity; try discriminate; intros H; discriminate H.
Qed.

(** X6.  A call is rejected with an error of the HTTP layer only when the
    request it sent was answered with that very error. *)
Theorem axios_error_only_from_http_layer (m : method) (argument : value)
    (w : world) (err : value) :
  fst (invoke server m argument w) = Rejected (AxiosError err) ->
  exists r : request,
    snd (invoke server m argument w)
    = {| this := this w; sent := r :: sent w |}
    /\ server (sent w) r = Failed err.
Proof.
  intros Hout.
  destruct (fails_before_request m argument) eqn:Hgo.
  - rewrite (invoke_fails m argument w Hgo) in Hout. discriminate.
  - destruct (request_of_defined m argument (baseClient (this w)) Hgo)
      as [r Hr].
    exists r. split; [apply invoke_world; assumption |].
    destruct (server (sent w) r) as [resp | err'] eqn:Hanswer.
    + rewrite (invoke_ok m argument w r resp Hgo Hr Hanswer) in Hout.
      rewrite async_unwrap in Hout. simpl in Hout.
      destruct m; try discriminate;
        destruct (nullish (data resp)); discriminate.
    + rewrite (invoke_failed m argument w r err' Hgo Hr Hanswer) in Hout.
      simpl in Hout. congruence.
Qed.

(** X7.  A call is fulfilled only after its one request succeeded, and the
    value is then the part of the response body the method unwraps: the
    [values], [issues] or [actors] property of a body that has properties,
    the body itself for [project], [undefined] for [categories]. *)
Theorem fulfilled_only_after_success (m : method) (argument : value)
    (w : world) (v : value) :
  fst (invoke server m argument w) = Fulfilled v ->
  exists (r : request) (resp : response),
    snd (invoke server m argument w)
    = {| this := this w; sent := r :: sent w |}
    /\ server (sent w) r = Ok resp
    /\ match m with
       | Projects | UsersByGroup =>
           nullish (data resp) = false /\ v = prop (data resp) "values"
       | Project => v = data resp
       | Search =>
           nullish (data resp) = false /\ v = prop (data resp) "issues"
       | ProjectRoles =>
           nullish (data resp) = false /\ v = prop (data resp) "actors"
       | Categories => v = VUndefined
       end.
Proof.
  intros Hout.
  destruct (fails_before_request m argument) eqn:Hgo.
  - rewrite (invoke_fails m argument w Hgo) in Hout. discriminate.
  - destruct (request_of_defined m argument (baseClient (this w)) Hgo)
      as [r Hr].
    exists r.
    destruct (server (sent w) r) as [resp | err] eqn:Hanswer.
    + exists resp. split; [apply invoke_world; assumption |].
      split; [reflexivity |].
      rewrite (invoke_ok m argument w r resp Hgo Hr Hanswer) in Hout.
      rewrite async_unwrap in Hout. simpl in Hout.
      destruct m; try (injection Hout as Hv; symmetry; exact Hv);
        (destruct (nullish (data resp)); [discriminate |]);
        injection Hout as Hv; (split; [reflexivity | symmetry; exact Hv]).
    + rewrite (invoke_failed m argument w r err Hgo Hr Hanswer) in Hout.
      discriminate.
Qed.

(** X8.  A call is rejected with a [TypeError] in two cases only: it is
    one of the calls that fail before their request
    ([fails_before_request]), and then nothing was sent; or the request
    succeeded with a body that is [undefined] or [null] and the method
    reads a property of the body. *)
Theorem type_error_causes (m : method) (argument : value) (w : world) :
  fst (invoke server m argument w) = Rejected TypeError ->
  (fails_before_request m argument = true
   /\ snd (invoke server m argument w) = w)
  \/ (m <> Project /\ m <> Categories
      /\ exists (r : request) (resp : response),
           snd (invoke server m argument w)
           = {| this := this w; sent := r :: sent w |}
           /\ server (sent w) r = Ok resp
           /\ nullish (data resp) = true).
Proof.
  intros Hout.
  destruct (fails_before_request m argument) eqn:Hgo.
  - left. split; [reflexivity |].
    rewrite (invoke_fails m argument w Hgo). reflexivity.
  - right.
    destruct (request_of_defined m argument (baseClient (this w)) Hgo)
      as [r Hr].
    destruct (server (sent w) r) as [resp | err] eqn:Hanswer.
    + rewrite (invoke_ok m argument w r resp Hgo Hr Hanswer) in Hout.
      rewrite async_unwrap in Hout. simpl in Hout.
      assert (Hcase : m <> Project /\ m <> Categories
                      /\ nullish (data resp) = true).
      { destruct m; try discriminate;
          (destruct (nullish (data resp)); [| discriminate]);
          repeat split; discriminate. }
      destruct Hcase as (HP & HC & Hnull).
      split; [exact HP |]. split; [exact HC |].
      exists r, resp.
      split; [apply invoke_world; assumption |].
      split; [exact Hanswer | exact Hnull].
    + rewrite (invoke_failed m argument w r err Hgo Hr Hanswer) in Hout.
      discriminate.
Qed.

(** X9.  When the request succeeds with a body that is [undefined] or
    [null], [project] still resolves to that body and [categories] to
    [undefined], while [projects], [search], [projectRoles] and
    [usersByGroup] are rejected with a [TypeError]. *)
Theorem null_body_outcome (m : method) (argument : value) (w : world)
    (r : request) (resp : response) :
  sent (snd (invoke server m argument w)) = r :: sent w ->
  server (sent w) r = Ok resp ->
  nullish (data resp) = true ->
  fst (invoke server m argument w)
  = match m with
    | Project => Fulfilled (data resp)
    | Categories => Fulfilled VUndefined
    | _ => Rejected TypeError
    end.
Proof.
  intros Hsent Hanswer Hnull.
  apply sent_request in Hsent. destruct Hsent as [Hgo Hr].
  rewrite (invoke_ok m argument w r resp Hgo Hr Hanswer), async_unwrap.
  simpl. rewrite Hnull. destruct m; reflexivity.
Qed.

(** X10.  Nothing is cached: a call that gets as far as its request
    ([fails_before_request] is false), repeated with the same argument,
    sends the same request a second time, whatever the first call
    returned. *)
Theorem repeated_call_sends_again (m : method) (argument : value)
    (w : world) :
  fails_before_request m argument = false ->
  exists r : request,
    snd (invoke server m argument (snd (invoke server m argument w)))
    = {| this := this w; sent := r :: r :: sent w |}.
Proof.
  intros Hgo.
  destruct (request_of_defined m argument (baseClient (this w)) Hgo)
    as [r Hr].
  exists r.
  rewrite (invoke_world m argument w r Hgo Hr).
  rewrite (invoke_world m argument {| this := this w; sent := r :: sent w |}
             r Hgo Hr).
  reflexivity.
Qed.

(** X11.  The client validates nothing: when the options of [project] have
    no [projectKey], the call still sends its request, to the path
    [project/undefined]. *)
Theorem project_without_key (w : world) (options : value) :
  nullish options = false ->
  prop options "projectKey" = VUndefined ->
  exists r : request,
    snd (invoke server Project options w)
    = {| this := this w; sent := r :: sent w |}
    /\ verb r = GET
    /\ url r = "project/undefined".
Proof.
  intros Hopt Hkey.
  assert (Hgo : fails_before_request Project options = false).
  { simpl. rewrite Hopt, Hkey. reflexivity. }
  assert (Hr : request_of Project options (baseClient (this w))
               = Normal (get_request (baseClient (this w))
                           "project/undefined"
                           (VObj [("expand",
                                   VStr "issueTypes,lead,description")]))).
  { simpl. rewrite Hkey. reflexivity. }
  eexists. split; [apply (invoke_world Project options w _ Hgo Hr) |].
  split; reflexivity.
Qed.

End Properties.

(** X5.  The request a call sends depends on the method, the argument and
    the axios instance only: not on the answers of the server, not on the
    requests sent before, not on the field [version]. *)
Theorem request_independent_of_answers (server1 server2 : server_type)
    (m : method) (argument : value) (w1 w2 : world) (r1 r2 : request) :
  baseClient (this w1) = baseClient (this w2) ->
  sent (snd (invoke server1 m argument w1)) = r1 :: sent w1 ->
  sent (snd (invoke server2 m argument w2)) = r2 :: sent w2 ->
  r1 = r2.
Proof.
  intros Hclient H1 H2.
  apply sent_request in H1. apply sent_request in H2.
  destruct H1 as [_ H1]. destruct H2 as [_ H2].
  rewrite Hclient in H1. congruence.
Qed.

(** ** The theorems at the sample data *)

(** C1.  For the project key ["JSC"], [project] sends a GET request to
    [project/JSC] and resolves to the whole response body, but the request
    has no query parameters: [expand] is an entry of the request
    configuration itself, not of its [params]. *)
Theorem project_expand_is_not_a_query_parameter :
  exists r : request,
    invoke example_server Project (VObj [("projectKey", VStr "JSC")])
      example_world
    = (Fulfilled example_body, {| this := example_jira; sent := [r] |})
    /\ verb r = GET
    /\ url r = "project/JSC"
    /\ config r = VObj [("expand", VStr "issueTypes,lead,description")]
    /\ query_params r = VUndefined.
Proof.
  eexists. split; [reflexivity |]. repeat split.
Qed.

Lemma constructor_configures_client_witness :
  (nullish example_options = false
   /\ prop example_options "version" = VUndefined
   /\ exists jira : Jira,
        constructor example_options = Normal jira
        /\ version jira = VNum 3
        /\ baseURL (baseClient jira)
           = VStr "https://yourhost.atlassian.net/rest/api/3"
        /\ username (baseClient jira) = VStr "jhn@doe.com"
        /\ password (baseClient jira) = VStr "secret")
  /\ (nullish versioned_options = false
      /\ prop versioned_options "version" = VNum 2
      /\ exists jira : Jira,
           constructor versioned_options = Normal jira
           /\ version jira = VNum 2
           /\ baseURL (baseClient jira)
              = VStr "https://yourhost.atlassian.net/rest/api/2"
           /\ username (baseClient jira) = VStr "jhn@doe.com"
           /\ password (baseClient jira) = VStr "secret").
Proof.
  split; (split; [reflexivity |]); (split; [reflexivity |]).
  - exact (constructor_configures_client example_options (VNum 3)
             "yourhost" "3" eq_refl (or_introl (conj eq_refl eq_refl))
             eq_refl eq_refl eq_refl eq_refl).
  - assert (Hgiven : VNum 2 <> VUndefined) by discriminate.
    exact (constructor_configures_client versioned_options (VNum 2)
             "yourhost" "2" eq_refl (or_intror (conj eq_refl Hgiven))
             eq_refl eq_refl eq_refl eq_refl).
Defined.

Lemma projects_request_and_result_witness :
  (nullish (VObj [("categoryId", VNum 5)]) = false
   /\ exists r : request,
        invoke example_server Projects (VObj [("categoryId", VNum 5)])
          example_world
        = (Fulfilled (VArr [VObj [("key", VStr "JSC")]]),
           {| this := example_jira; sent := [r] |})
        /\ query_params r
           = VObj [("categoryId", VNum 5); ("maxResults", VNum 200)])
  /\ (nullish (VObj []) = false
      /\ exists r : request,
           invoke example_server Projects (VObj []) example_world
           = (Fulfilled (VArr [VObj [("key", VStr "JSC")]]),
              {| this := example_jira; sent := [r] |})
           /\ query_params r
              = VObj [("categoryId", VNum 1000); ("maxResults", VNum 200)]).
Proof.
  split; (split; [reflexivity |]).
  - assert (Hgiven : VNum 5 <> VUndefined) by discriminate.
    destruct (projects_request_and_result example_server example_world
                (VObj [("categoryId", VNum 5)]) (VNum 5) example_response
                eq_refl (or_intror (conj eq_refl Hgiven)) eq_refl eq_refl)
      as (r & Hcall & _ & _ & _ & Hparams).
    exists r. split; [exact Hcall | exact Hparams].
  - destruct (projects_request_and_result example_server example_world
                (VObj []) (VNum 1000) example_response
                eq_refl (or_introl (conj eq_refl eq_refl)) eq_refl eq_refl)
      as (r & Hcall & _ & _ & _ & Hparams).
    exists r. split; [exact Hcall | exact Hparams].
Defined.

Lemma search_request_and_result_witness :
  (nullish (VObj [("jql", VStr "project = JSC");
                  ("fields", VArr [VStr "key"])]) = false
   /\ exists r : request,
        invoke example_server Search
          (VObj [("jql", VStr "project = JSC");
                 ("fields", VArr [VStr "key"])])
          example_world
        = (Fulfilled (VArr [VObj [("key", VStr "JSC-1")]]),
           {| this := example_jira; sent := [r] |})
        /\ verb r = POST
        /\ body r
           = VObj [("jql", VStr "project = JSC");
                   ("maxResults", VNum 100);
                   ("fields", VArr [VStr "key"])])
  /\ (nullish (VObj [("jql", VStr "project = JSC")]) = false
      /\ exists r : request,
           invoke example_server Search
             (VObj [("jql", VStr "project = JSC")]) example_world
           = (Fulfilled (VArr [VObj [("key", VStr "JSC-1")]]),
              {| this := example_jira; sent := [r] |})
           /\ verb r = POST
           /\ body r
              = VObj [("jql", VStr "project = JSC");
                      ("maxResults", VNum 100);
                      ("fields",
                       VArr [VStr "summary"; VStr "status"; VStr "assignee";
                             VStr "timetracking"])]).
Proof.
  split; (split; [reflexivity |]).
  - assert (Hgiven : VArr [VStr "key"] <> VUndefined) by discriminate.
    destruct (search_request_and_result example_server example_world
                (VObj [("jql", VStr "project = JSC");
                       ("fields", VArr [VStr "key"])])
                (VArr [VStr "key"]) example_response
                eq_refl (or_intror (conj eq_refl Hgiven)) eq_refl eq_refl)
      as (r & Hcall & _ & Hverb & _ & Hbody).
    exists r. split; [exact Hcall | split; [exact Hverb | exact Hbody]].
  - destruct (search_request_and_result example_server example_world
                (VObj [("jql", VStr "project = JSC")])
                (VArr [VStr "summary"; VStr "status"; VStr "assignee";
                       VStr "timetracking"])
                example_response
                eq_refl (or_introl (conj eq_refl eq_refl)) eq_refl eq_refl)
      as (r & Hcall & _ & Hverb & _ & Hbody).
    exists r. split; [exact Hcall | split; [exact Hverb | exact Hbody]].
Defined.

Lemma projectRoles_request_and_result_witness :
  nullish (VObj [("projectKey", VStr "JSC"); ("role", VNum 10002)]) = false
  /\ prints_exactly (VStr "JSC") = true
  /\ prints_exactly (VNum 10002) = true
  /\ nullish (data example_response) = false
  /\ exists r : request,
       invoke example_server ProjectRoles
         (VObj [("projectKey", VStr "JSC"); ("role", VNum 10002)])
         example_world
       = (Fulfilled (VArr [VObj [("displayName", VStr "John Doe")]]),
          {| this := example_jira; sent := [r] |})
       /\ url r = "project/JSC/role/10002"
       /\ query_params r = VUndefined.
Proof.
  do 4 (split; [reflexivity |]).
  destruct (projectRoles_request_and_result example_server example_world
              (VObj [("projectKey", VStr "JSC"); ("role", VNum 10002)])
              "JSC" "10002" example_response
              eq_refl eq_refl eq_refl eq_refl eq_refl eq_refl eq_refl)
    as (r & Hcall & _ & _ & Hurl & _ & Hparams).
  exists r. split; [exact Hcall | split; [exact Hurl | exact Hparams]].
Defined.

Lemma usersByGroup_request_and_result_witness :
  nullish (VObj [("groupname", VStr "developers")]) = false
  /\ nullish (data example_response) = false
  /\ exists r : request,
       invoke example_server UsersByGroup
         (VObj [("groupname", VStr "developers")]) example_world
       = (Fulfilled (VArr [VObj [("key", VStr "JSC")]]),
          {| this := example_jira; sent := [r] |})
       /\ query_params r
          = VObj [("groupname", VStr "developers");
                  ("maxResults", VNum 200);
                  ("includeInactiveUsers", VBool true)].
Proof.
  split; [reflexivity |]. split; [reflexivity |].
  destruct (usersByGroup_request_and_result example_server example_world
              (VObj [("groupname", VStr "developers")]) example_response
              eq_refl eq_refl eq_refl)
    as (r & Hcall & _ & _ & _ & Hparams).
  exists r. split; [exact Hcall | exact Hparams].
Defined.

Lemma categories_discards_response_witness :
  example_server (sent example_world)
    (get_request example_client "projectCategory" VUndefined)
  = Ok example_response
  /\ exists r : request,
       invoke example_server Categories VUndefined example_world
       = (Fulfilled VUndefined, {| this := example_jira; sent := [r] |})
       /\ url r = "projectCategory".
Proof.
  split; [reflexivity |].
  destruct (categories_discards_response example_server example_world
              VUndefined example_response eq_refl)
    as (r & Hcall & _ & _ & Hurl & _).
  exists r. split; [exact Hcall | exact Hurl].
Defined.

Lemma http_failure_propagates_witness :
  down_server (sent example_world)
    (get_request example_client "group/member"
       (VObj [("params",
               VObj [("groupname", VStr "developers");
                     ("maxResults", VNum 200);
                     ("includeInactiveUsers", VBool true)])]))
  = Failed network_error
  /\ fst (invoke down_server UsersByGroup
            (VObj [("groupname", VStr "developers")]) example_world)
     = Rejected (AxiosError network_error).
Proof.
  split; [reflexivity |].
  rewrite (http_failure_propagates down_server UsersByGroup
             (VObj [("groupname", VStr "developers")]) example_world
             _ network_error eq_refl eq_refl).
  reflexivity.
Defined.

Lemma method_call_frame_witness :
  fails_before_request ProjectRoles
    (VObj [("projectKey", VStr "JSC"); ("role", VNum 10002)]) = false
  /\ exists r : request,
       snd (invoke down_server ProjectRoles
              (VObj [("projectKey", VStr "JSC"); ("role", VNum 10002)])
              example_world)
       = {| this := example_jira; sent := [r] |}.
Proof.
  split; [reflexivity |].
  apply (proj2 (method_call_frame down_server ProjectRoles
                  (VObj [("projectKey", VStr "JSC"); ("role", VNum 10002)])
                  example_world)).
  reflexivity.
Defined.

(** C9 as stated fails: [search()] without an argument is a method call
    that sends no request at all. *)
Lemma search_without_argument_sends_nothing :
  ~ exists r : request,
      sent (snd (invoke example_server Search VUndefined example_world))
      = r :: sent example_world.
Proof. intros [r Hr]. discriminate Hr. Qed.

(** ** The outcome theorems at the sample data *)

Lemma request_carries_constructor_settings_witness :
  constructor versioned_options = Normal versioned_jira
  /\ sent (snd (invoke example_server Categories VUndefined versioned_world))
     = [get_request (baseClient versioned_jira) "projectCategory" VUndefined]
  /\ baseURL (baseClient versioned_jira)
     = VStr "https://yourhost.atlassian.net/rest/api/2"
  /\ username (baseClient versioned_jira) = VStr "jhn@doe.com"
  /\ password (baseClient versioned_jira) = VStr "secret".
Proof.
  split; [reflexivity |]. split; [reflexivity |].
  assert (Hgiven : VNum 2 <> VUndefined) by discriminate.
  exact (request_carries_constructor_settings example_server
           versioned_options (VNum 2) "yourhost" "2" versioned_jira
           Categories VUndefined versioned_world
           (get_request (baseClient versioned_jira) "projectCategory"
              VUndefined)
           eq_refl (or_intror (conj eq_refl Hgiven))
           eq_refl eq_refl eq_refl eq_refl eq_refl eq_refl).
Defined.

Lemma only_search_posts_witness :
  sent (snd (invoke example_server Search
               (VObj [("jql", VStr "project = JSC")]) example_world))
  = [post_request example_client "search"
       (VObj [("jql", VStr "project = JSC");
              ("maxResults", VNum 100);
              ("fields", default_fields)])]
  /\ verb (post_request example_client "search"
             (VObj [("jql", VStr "project = JSC");
                    ("maxResults", VNum 100);
                    ("fields", default_fields)])) = POST
  /\ query_params (post_request example_client "search"
                     (VObj [("jql", VStr "project = JSC");
                            ("maxResults", VNum 100);
                            ("fields", default_fields)])) = VUndefined.
Proof.
  split; [reflexivity |].
  destruct (only_search_posts example_server Search
              (VObj [("jql", VStr "project = JSC")]) example_world
              (post_request example_client "search"
                 (VObj [("jql", VStr "project = JSC");
                        ("maxResults", VNum 100);
                        ("fields", default_fields)])) eq_refl)
    as (Hverb & _ & Hpost).
  split; [apply Hverb; reflexivity | apply Hpost, Hverb; reflexivity].
Defined.

Lemma request_independent_of_answers_witness :
  baseClient (this example_world)
  = baseClient (this {| this := {| version := VNum 2;
                                  baseClient := example_client |};
                        sent := [get_request example_client "x" VNull] |})
  /\ sent (snd (invoke example_server Projects (VObj []) example_world))
     = [get_request example_client "project/search"
          (VObj [("params", VObj [("categoryId", VNum 1000);
                                  ("maxResults", VNum 200)])])]
  /\ sent (snd (invoke down_server Projects (VObj [])
                  {| this := {| version := VNum 2;
                                baseClient := example_client |};
                     sent := [get_request example_client "x" VNull] |}))
     = [get_request example_client "project/search"
          (VObj [("params", VObj [("categoryId", VNum 1000);
                                  ("maxResults", VNum 200)])]);
        get_request example_client "x" VNull]
  /\ get_request example_client "project/search"
       (VObj [("params", VObj [("categoryId", VNum 1000);
                               ("maxResults", VNum 200)])])
     = get_request example_client "project/search"
         (VObj [("params", VObj [("categoryId", VNum 1000);
                                 ("maxResults", VNum 200)])]).
Proof.
  do 3 (split; [reflexivity |]).
  exact (request_independent_of_answers example_server down_server
           Projects (VObj [])
           example_world
           {| this := {| version := VNum 2; baseClient := example_client |};
              sent := [get_request example_client "x" VNull] |}
           (get_request example_client "project/search"
              (VObj [("params", VObj [("categoryId", VNum 1000);
                                      ("maxResults", VNum 200)])]))
           (get_request example_client "project/search"
              (VObj [("params", VObj [("categoryId", VNum 1000);
                                      ("maxResults", VNum 200)])]))
           eq_refl eq_refl eq_refl).
Defined.

Lemma axios_error_only_from_http_layer_witness :
  fst (invoke down_server UsersByGroup
         (VObj [("groupname", VStr "developers")]) example_world)
  = Rejected (AxiosError network_error)
  /\ exists r : request,
       snd (invoke down_server UsersByGroup
              (VObj [("groupname", VStr "developers")]) example_world)
       = {| this := example_jira; sent := [r] |}
       /\ down_server [] r = Failed network_error.
Proof.
  split; [reflexivity |].
  exact (axios_error_only_from_http_layer down_server UsersByGroup
           (VObj [("groupname", VStr "developers")]) example_world
           network_error eq_refl).
Defined.

Lemma fulfilled_only_after_success_witness :
  fst (invoke example_server Projects (VObj []) example_world)
  = Fulfilled (VArr [VObj [("key", VStr "JSC")]])
  /\ exists (r : request) (resp : response),
       snd (invoke example_server Projects (VObj []) example_world)
       = {| this := example_jira; sent := [r] |}
       /\ example_server [] r = Ok resp
       /\ nullish (data resp) = false
       /\ VArr [VObj [("key", VStr "JSC")]] = prop (data resp) "values".
Proof.
  split; [reflexivity |].
  exact (fulfilled_only_after_success example_server Projects (VObj [])
           example_world (VArr [VObj [("key", VStr "JSC")]]) eq_refl).
Defined.

Lemma type_error_causes_witness :
  fst (invoke example_server Project (VObj [("projectKey", unprintable)])
         example_world)
  = Rejected TypeError
  /\ ((fails_before_request Project (VObj [("projectKey", unprintable)])
       = true
       /\ snd (invoke example_server Project
                 (VObj [("projectKey", unprintable)]) example_world)
          = example_world)
      \/ (Project <> Project /\ Project <> Categories
          /\ exists (r : request) (resp : response),
               snd (invoke example_server Project
                      (VObj [("projectKey", unprintable)]) example_world)
               = {| this := example_jira; sent := [r] |}
               /\ example_server [] r = Ok resp
               /\ nullish (data resp) = true)).
Proof.
  split; [reflexivity |].
  exact (type_error_causes example_server Project
           (VObj [("projectKey", unprintable)]) example_world eq_refl).
Defined.

Lemma null_body_outcome_witness :
  null_server (sent example_world)
    (get_request example_client "project/undefined/role/undefined" VUndefined)
  = Ok {| status := 200; data := VNull |}
  /\ fst (invoke null_server ProjectRoles (VObj []) example_world)
     = Rejected TypeError.
Proof.
  split; [reflexivity |].
  exact (null_body_outcome null_server ProjectRoles (VObj []) example_world
           (get_request example_client "project/undefined/role/undefined"
              VUndefined)
           {| status := 200; data := VNull |} eq_refl eq_refl eq_refl).
Defined.

Lemma repeated_call_sends_again_witness :
  fails_before_request Project (VObj [("projectKey", VStr "JSC")]) = false
  /\ exists r : request,
       snd (invoke example_server Project (VObj [("projectKey", VStr "JSC")])
              (snd (invoke example_server Project
                      (VObj [("projectKey", VStr "JSC")]) example_world)))
       = {| this := example_jira; sent := [r; r] |}.
Proof.
  split; [reflexivity |].
  exact (repeated_call_sends_again example_server Project
           (VObj [("projectKey", VStr "JSC")]) example_world eq_refl).
Defined.

Lemma project_without_key_witness :
  nullish (VObj [("key", VStr "JSC")]) = false
  /\ prop (VObj [("key", VStr "JSC")]) "projectKey" = VUndefined
  /\ exists r : request,
       snd (invoke example_server Project (VObj [("key", VStr "JSC")])
              example_world)
       = {| this := example_jira; sent := [r] |}
       /\ verb r = GET
       /\ url r = "project/undefined".
Proof.
  split; [reflexivity |]. split; [reflexivity |].
  exact (project_without_key example_server example_world
           (VObj [("key", VStr "JSC")]) eq_refl eq_refl).
Defined.
